(** * NerveMQ Python examples: the SQS client workflow

    A shallow embedding of [examples/python/example.py] and
    [examples/python/nervemq_example/main.py].  Both scripts build a boto3
    SQS client and run the same three steps against it: resolve the queue
    ['bruh'] (look it up, create it when the lookup raises), send one message
    with one typed attribute, and receive with a bounded poll.

    The scripts are effectful: every call on the client goes to a service,
    may raise, and the calls made before an exception stay made.  They are
    embedded in an exception monad over a state monad whose state is the
    service together with the log of the calls issued and of the lines
    printed. *)

From Stdlib Require Import String List ZArith Bool Lia DecimalString.
From ExtLib Require Import Structures.Monad Structures.MonadState Structures.MonadExc.
From ExtLib Require Import Data.Monads.StateMonad Data.Monads.EitherMonad.
Import ListNotations.
Import MonadNotation.
Local Open Scope string_scope.
Local Open Scope list_scope.
Local Open Scope monad_scope.

Set Implicit Arguments.
#[local] Set Warnings "-register-all".

(** ** Python values *)

(** The values the scripts handle: [None], strings, integers, lists and
    dictionaries with string keys.  A dictionary keeps its items in insertion
    order, as Python's do. *)
Inductive pyval : Type :=
| PNone
| PStr (s : string)
| PInt (n : Z)
| PList (l : list pyval)
| PDict (d : list (string * pyval)).

Definition dict : Type := list (string * pyval).

(** [d.get(k)]: the value stored under [k], [None] when the key is absent. *)
Fixpoint dict_get (k : string) (d : dict) : pyval :=
  match d with
  | [] => PNone
  | (k', v) :: d' => if String.eqb k k' then v else dict_get k d'
  end.

(** ** The boto3 client *)

(** What [boto3.client(...)] is given: the service name and the keyword
    arguments of the scripts. *)
Record client : Type := boto3_client {
  service_name : string;
  aws_access_key_id : string;
  aws_secret_access_key : string;
  region_name : string;
  endpoint_url : string
}.

(** The four client methods the scripts call, with their keyword arguments.
    [QueueUrl] is a [pyval] because the scripts pass whatever
    [res.get('QueueUrl')] gave, [None] included. *)
Inductive request : Type :=
| get_queue_url (QueueName : string)
| create_queue (QueueName : string)
| send_message (QueueUrl : pyval) (MessageBody : string)
    (MessageAttributes : dict)
| receive_message (QueueUrl : pyval) (AttributeNames : list string)
    (MessageAttributeNames : list string)
    (MaxNumberOfMessages VisibilityTimeout WaitTimeSeconds : Z)
    (ReceiveRequestAttemptId : string).

(** The ways a request can be invalid (spec, section 4.2). *)
Inductive invalid : Type :=
| OversizePayload
| InvalidHandle
| MalformedAttribute.

(** The kinds of exception a client call raises, after the error taxonomy of
    the spec (section 7); the scripts name none.  They never look at the
    exception they catch, so nothing below depends on there being no other
    kind. *)
Inductive exn : Type :=
| NotFoundError
| TransportError
| AuthorizationError
| ValidationError (why : invalid).

(** One call on the client as the service saw it: who called, with what, and
    what came back ([inl] an exception raised, [inr] the response dict). *)
Record call_record : Type := Call {
  call_by : client;
  call_req : request;
  call_res : exn + dict
}.

(** One [print(f'{label}{value}')]. *)
Record line : Type := Line {
  line_label : string;
  line_value : pyval
}.

(** ** Running a script *)

(** Whatever answers the methods of the client object, the client library and
    the service behind it taken together: a state and a function giving, for
    a call, the next state and either an exception or a response dict. *)
Class Backend (Service : Type) : Type :=
  serve : Service -> client -> request -> Service * (exn + dict).

Section Script.

Context {Service : Type} `{Backend Service}.

Record world : Type := World {
  service : Service;
  calls : list call_record;
  stdout : list line
}.

Definition script : Type -> Type := eitherT exn (state world).

(** [sqs.method(...)]: the call reaches the service, is logged, and
    returns the response or raises. *)
Definition invoke (sqs : client) (r : request) : script dict :=
  mkEitherT (mkState (fun w =>
    let (s', res) := serve (service w) sqs r in
    (res, World s' (calls w ++ [Call sqs r res]) (stdout w)))).

(** [print(f'{label}{v}')]. *)
Definition print (label : string) (v : pyval) : script unit :=
  mkEitherT (mkState (fun w =>
    (inr tt, World (service w) (calls w) (stdout w ++ [Line label v])))).

(** [try: body / except: handler], the bare [except] that catches every
    exception. *)
Definition try_except {A} (body handler : script A) : script A :=
  catch body (fun _ : exn => handler).

Definition run {A} (c : script A) (w : world) : (exn + A) * world :=
  runState (unEitherT c) w.

Definition start (s : Service) : world := World s [] [].

End Script.

Arguments world Service : clear implicits.
Arguments script Service : clear implicits.

(** ** examples/python/example.py *)
Module Example.
Section Main.

Context {Service : Type} `{Backend Service}.

Definition host_url : string := "http://localhost:8080/sqs".

(** [url = None] (line 16) is overwritten on every path that reaches line 24:
    [url] is what the [try] statement yields.  [res.get] is [dict_get], which
    does not raise. *)
Definition main : script Service unit :=
  let sqs := boto3_client "sqs" "PdNJWCvVtcc"
               "JosFLEGqsRdmQ4hE1ppVEZ1qKV3M3bVFN" "us-west-1" host_url in
  url <- try_except
           (res <- invoke sqs (get_queue_url "bruh") ;;
            ret (dict_get "QueueUrl" res))
           (res <- invoke sqs (create_queue "bruh") ;;
            ret (dict_get "QueueUrl" res)) ;;
  print "Queue URL: " url ;;
  response <- invoke sqs
    (send_message url "Hello World!"
       [("Test", PDict [("StringValue", PStr "TestString");
                        ("DataType", PStr "String")])]) ;;
  print "Message ID: " (dict_get "MessageId" response) ;;
  response <- invoke sqs
    (receive_message url ["All"] ["Test"] 10 0 0 "1") ;;
  print "Messages: " (dict_get "Messages" response).

End Main.
End Example.

(** ** examples/python/nervemq_example/main.py *)
Module Nervemq_example.
Section Main.

Context {Service : Type} `{Backend Service}.

Definition custom_url : string := "http://localhost:8080/sqs".

Definition main : script Service unit :=
  let sqs := boto3_client "sqs" "UyTz3t56rjb"
               "GoLqobpKZiKyvdrGB5jmbmTizHsC12cXH" "us-west-1" custom_url in
  url <- try_except
           (res <- invoke sqs (get_queue_url "bruh") ;;
            ret (dict_get "QueueUrl" res))
           (res <- invoke sqs (create_queue "bruh") ;;
            ret (dict_get "QueueUrl" res)) ;;
  print "Queue URL: " url ;;
  response <- invoke sqs
    (send_message url "Hello World!"
       [("Test", PDict [("StringValue", PStr "TestString");
                        ("DataType", PStr "String")])]) ;;
  print "Message ID: " (dict_get "MessageId" response) ;;
  response <- invoke sqs
    (receive_message url ["All"] ["All"] 10 0 0 "1") ;;
  print "Messages: " (dict_get "Messages" response).

End Main.
End Nervemq_example.

(** ** The three steps of the workflow

    Both [main]s are the same three blocks in a row.  Each block is given
    here once, as a function of the variables and literals it mentions, so
    that a property of a block is stated for any queue name, body or token
    and holds for the scripts as the case of their literals
    ([Example_main_steps], [Nervemq_example_main_steps]). *)
Section Steps.

Context {Service : Type} `{Backend Service}.

(** Lines 16-22: look the queue up by name, and create it when the lookup
    raises. *)
Definition ResolveQueue (sqs : client) (name : string) : script Service pyval :=
  try_except
    (res <- invoke sqs (get_queue_url name) ;;
     ret (dict_get "QueueUrl" res))
    (res <- invoke sqs (create_queue name) ;;
     ret (dict_get "QueueUrl" res)).

(** Lines 26-32: send one message to the resolved queue. *)
Definition PublishMessage (sqs : client) (url : pyval) (body : string)
    (attributes : dict) : script Service dict :=
  invoke sqs (send_message url body attributes).

(** Lines 36-44: one bounded receive on the resolved queue. *)
Definition PollReceive (sqs : client) (url : pyval)
    (attributeNames messageAttributeNames : list string)
    (maxMessages visibilityTimeout waitDuration : Z) (dedupToken : string)
    : script Service dict :=
  invoke sqs
    (receive_message url attributeNames messageAttributeNames
       maxMessages visibilityTimeout waitDuration dedupToken).

(** The message attributes both scripts send. *)
Definition test_attributes : dict :=
  [("Test", PDict [("StringValue", PStr "TestString");
                   ("DataType", PStr "String")])].

(** Lines 16-46, for a client and the [MessageAttributeNames] asked for. *)
Definition workflow (sqs : client) (names : list string) : script Service unit :=
  url <- ResolveQueue sqs "bruh" ;;
  print "Queue URL: " url ;;
  response <- PublishMessage sqs url "Hello World!" test_attributes ;;
  print "Message ID: " (dict_get "MessageId" response) ;;
  response <- PollReceive sqs url ["All"] names 10 0 0 "1" ;;
  print "Messages: " (dict_get "Messages" response).

End Steps.

(** The clients the two scripts build (lines 8-14). *)
Definition example_sqs : client :=
  boto3_client "sqs" "PdNJWCvVtcc" "JosFLEGqsRdmQ4hE1ppVEZ1qKV3M3bVFN"
    "us-west-1" Example.host_url.

Definition nervemq_example_sqs : client :=
  boto3_client "sqs" "UyTz3t56rjb" "GoLqobpKZiKyvdrGB5jmbmTizHsC12cXH"
    "us-west-1" Nervemq_example.custom_url.

(** ** Reading the log of calls *)

Definition is_create (c : call_record) : bool :=
  match call_req c with create_queue _ => true | _ => false end.

(** How many times [create_queue] was invoked. *)
Definition created (cs : list call_record) : nat :=
  length (filter is_create cs).

Definition is_lookup (c : call_record) : bool :=
  match call_req c with get_queue_url _ => true | _ => false end.

Definition is_send (c : call_record) : bool :=
  match call_req c with send_message _ _ _ => true | _ => false end.

Definition is_receive (c : call_record) : bool :=
  match call_req c with receive_message _ _ _ _ _ _ _ => true | _ => false end.

(** How many of the logged calls satisfy [p]. *)
Definition invoked (p : call_record -> bool) (cs : list call_record) : nat :=
  length (filter p cs).

Definition not_receive (c : call_record) : bool := negb (is_receive c).

(** The step of the workflow a call belongs to. *)
Inductive step : Type := Resolve | Publish | Poll.

Definition step_of (c : call_record) : step :=
  match call_req c with
  | get_queue_url _ | create_queue _ => Resolve
  | send_message _ _ _ => Publish
  | receive_message _ _ _ _ _ _ _ => Poll
  end.

(** The tag of an attribute value, when it carries one. *)
Definition data_type (v : pyval) : option string :=
  match v with
  | PDict d =>
      match dict_get "DataType" d with
      | PStr t => Some t
      | _ => None
      end
  | _ => None
  end.

Definition without_credentials (c : client) : client :=
  boto3_client (service_name c) "" "" (region_name c) (endpoint_url c).

Definition without_names (r : request) : request :=
  match r with
  | receive_message url attributeNames _ maxMessages visibilityTimeout
      waitDuration token =>
      receive_message url attributeNames [] maxMessages visibilityTimeout
        waitDuration token
  | _ => r
  end.

(** A logged call with the credentials and the requested message-attribute
    names blanked. *)
Definition masked (c : call_record) : call_record :=
  Call (without_credentials (call_by c)) (without_names (call_req c)) (call_res c).

Section Log.

Context {Service : Type} `{Backend Service}.

(** The log is one sequential run of the service from [s] to [s']: each call
    is served in the state the call before it left, and answered as
    logged. *)
Fixpoint replays (s : Service) (cs : list call_record) (s' : Service) : Prop :=
  match cs with
  | [] => s = s'
  | c :: cs' =>
      snd (serve s (call_by c) (call_req c)) = call_res c /\
      replays (fst (serve s (call_by c) (call_req c))) cs' s'
  end.

(** The service answers the same whatever the credentials and the requested
    message-attribute names. *)
Definition blind : Prop :=
  forall (s : Service) c r,
    serve s c r = serve s (without_credentials c) (without_names r).

(** The service answers the same whatever the credentials. *)
Definition credential_blind : Prop :=
  forall (s : Service) c r, serve s c r = serve s (without_credentials c) r.

(** The reading of the spec under which only a lookup that raises
    [NotFoundError] reaches the create call: any other error of the lookup
    comes out of [ResolveQueue] as it is, and nothing is created. *)
Definition only_not_found_falls_back (s : Service) (sqs : client) (name : string)
    : Prop :=
  forall e, snd (serve s sqs (get_queue_url name)) = inl e ->
    e <> NotFoundError ->
    fst (run (ResolveQueue sqs name) (start s)) = inl e /\
    created (calls (snd (run (ResolveQueue sqs name) (start s)))) = 0.

(** The reading under which a resolving response without ['QueueUrl'] always
    leads to both a send and a receive with [QueueUrl=None]. *)
Definition sends_and_receives_without_handle (s : Service) (sqs : client)
    (names : list string) : Prop :=
  (exists res,
      snd (serve s sqs (get_queue_url "bruh")) = inr res /\
      dict_get "QueueUrl" res = PNone) \/
  (exists e res,
      snd (serve s sqs (get_queue_url "bruh")) = inl e /\
      snd (serve (fst (serve s sqs (get_queue_url "bruh"))) sqs
                 (create_queue "bruh")) = inr res /\
      dict_get "QueueUrl" res = PNone) ->
  exists r2 r3,
    In (Call sqs (send_message PNone "Hello World!" test_attributes) r2)
       (calls (snd (run (workflow sqs names) (start s)))) /\
    In (Call sqs (receive_message PNone ["All"] names 10 0 0 "1") r3)
       (calls (snd (run (workflow sqs names) (start s)))).

End Log.

Arguments blind Service {_}.
Arguments credential_blind Service {_}.

(** ** Services *)

(** A service that answers from a list of prepared responses, one per call,
    whatever the call; with none left the call fails in transport. *)
Module Scripted.

#[global] Instance backend : Backend (list (exn + dict)) :=
  fun rs _ _ =>
    match rs with
    | [] => ([], inl TransportError)
    | r :: rs' => (rs', r)
    end.

End Scripted.

(** Modelled from the spec: a missing queue handle is surfaced as an
    invalid-handle failure (section 4.2).  A send or a receive whose
    [QueueUrl] is not a string raises before anything behind is asked, as
    the client library's own parameter check does; every other call goes
    through unchanged. *)
Module Validating.

Record validated (Service : Type) : Type := Validated { behind : Service }.

Definition has_handle (r : request) : bool :=
  match r with
  | send_message (PStr _) _ _ => true
  | receive_message (PStr _) _ _ _ _ _ _ => true
  | send_message _ _ _ => false
  | receive_message _ _ _ _ _ _ _ => false
  | _ => true
  end.

#[global] Instance backend {Service : Type} `{Backend Service}
    : Backend (validated Service) :=
  fun v sqs r =>
    if has_handle r then
      let (s', res) := serve (behind v) sqs r in (Validated s', res)
    else (v, inl (ValidationError InvalidHandle)).

End Validating.

Module NerveMQ.

(** Modelled from the spec: the queue service the scripts talk to (the
    NerveMQ server behind [http://localhost:8080/sqs]), which is not among the
    source files.  The spec gives its four operations (section 6), what they
    store and return (sections 3 and 4) and the errors they raise (section
    7).  It leaves open how a handle is derived from a queue name and how
    large a body may be: these are the service's [settings].  Transport and
    authorization are outside the service: this model never raises
    [TransportError] or [AuthorizationError], and ignores who calls. *)
Record config : Type := Config {
  handle_of : string -> string;
  size_limit : nat
}.

(** Modelled from the spec: a stored message (section 3), with what the
    visibility timeout needs (section 4.3).  [lease] is [Some (token, until)] once a receive with a
    positive visibility timeout has handed the message out: it stays hidden
    from other receives until the clock reaches [until]. *)
Record message : Type := Message {
  MessageId : string;
  Body : string;
  Attributes : dict;
  lease : option (string * Z)
}.

Record queue : Type := Queue {
  queue_name : string;
  queue_handle : string;
  messages : list message
}.

(** Modelled from the spec: the state of the service.  The queues in creation
    order, the service's clock, and how many messages it has accepted so
    far. *)
Record state : Type := State {
  settings : config;
  queues : list queue;
  clock : Z;
  accepted : nat
}.

Definition empty (c : config) : state := State c [] 0 0.

(** Time passing at the service. *)
Definition elapse (d : Z) (s : state) : state :=
  State (settings s) (queues s) (clock s + Z.max 0 d) (accepted s).

Definition by_name (name : string) (qs : list queue) : option queue :=
  find (fun q => String.eqb (queue_name q) name) qs.

(** The queue a handle designates; a value that is not a string designates
    none. *)
Definition by_handle (url : pyval) (qs : list queue) : option queue :=
  match url with
  | PStr h => find (fun q => String.eqb (queue_handle q) h) qs
  | _ => None
  end.

(** Put [q'] in the place of the first queue with its handle. *)
Fixpoint store (q' : queue) (qs : list queue) : list queue :=
  match qs with
  | [] => []
  | q :: qs' =>
      if String.eqb (queue_handle q) (queue_handle q') then q' :: qs'
      else q :: store q' qs'
  end.

(** Modelled from the spec: the service-assigned, non-empty message id
    (sections 3 and 8).  The model takes the number of the message, in
    decimal, after an ["m"]. *)
Definition message_id (n : nat) : string :=
  ("m" ++ NilEmpty.string_of_uint (Nat.to_uint n))%string.

(** Modelled from the spec: a message attribute is a value with an explicit
    data-type tag and a payload (section 3); anything else is malformed. *)
Definition well_typed (v : pyval) : bool :=
  match data_type v, v with
  | Some _, PDict d =>
      match dict_get "StringValue" d, dict_get "BinaryValue" d with
      | PNone, PNone => false
      | _, _ => true
      end
  | _, _ => false
  end.

Definition visible (now : Z) (m : message) : bool :=
  match lease m with
  | Some (_, until) => (until <=? now)%Z
  | None => true
  end.

(** Handed out by an attempt with this token, and still hidden. *)
Definition in_flight (now : Z) (token : string) (m : message) : bool :=
  match lease m with
  | Some (t, until) => (now <? until)%Z && String.eqb t token
  | None => false
  end.

(** Modelled from the spec: a positive visibility timeout hides the message
    until it has elapsed; with timeout 0 the message is at once visible
    again (section 4.3). *)
Definition hide (now vis : Z) (token : string) (m : message) : message :=
  if (0 <? vis)%Z
  then Message (MessageId m) (Body m) (Attributes m) (Some (token, (now + vis)%Z))
  else m.

(** Modelled from the spec: hand out the first [n] visible messages.  The
    result is the batch and the queue's messages afterwards; none is removed
    (section 3: a receive never deletes). *)
Fixpoint deliver (now vis : Z) (token : string) (n : nat) (ms : list message)
    : list message * list message :=
  match ms with
  | [] => ([], [])
  | m :: ms' =>
      match n with
      | O => ([], ms)
      | S n' =>
          if visible now m then
            let (batch, rest) := deliver now vis token n' ms' in
            (m :: batch, hide now vis token m :: rest)
          else
            let (batch, rest) := deliver now vis token n ms' in
            (batch, m :: rest)
      end
  end.

(** Modelled from the spec: the deduplication token makes a retried receive
    idempotent with respect to in-flight delivery (sections 3 and 4.3).  A
    receive whose token has messages in flight is a retry of that attempt and
    gets those messages again; otherwise it is a new attempt. *)
Definition attempt (now vis : Z) (token : string) (n : nat) (ms : list message)
    : list message * list message :=
  match filter (in_flight now token) ms with
  | [] => deliver now vis token n ms
  | retried => (retried, ms)
  end.

(** Modelled from the spec: the attributes asked for (section 4.3, edge
    case).  All of them under the name ["All"], otherwise those whose name is
    listed; a listed name the message lacks is skipped. *)
Definition requested (names : list string) (attrs : dict) : dict :=
  if existsb (String.eqb "All") names then attrs
  else filter (fun kv => existsb (String.eqb (fst kv)) names) attrs.

(** Modelled from the spec: an inbound message (section 3), without the
    service metadata, which the scripts do not read. *)
Definition inbound (names : list string) (m : message) : pyval :=
  PDict [("MessageId", PStr (MessageId m));
         ("Body", PStr (Body m));
         ("MessageAttributes", PDict (requested names (Attributes m)))].

(** Modelled from the spec: the four operations of the service (section 6).
    A lookup finds the queue or raises
    [NotFoundError]; a create returns the handle of the queue of that name,
    making the queue first when there is none; a send checks the handle, the
    size and the attributes, and then appends exactly one message; a receive
    hands out at most [maxMessages] messages and removes none.  The system
    attribute names and the wait duration of a receive play no part: the
    model answers at once with what is available, and has no ceiling of its
    own on [maxMessages]. *)
Definition answer (s : state) (sqs : client) (r : request) : state * (exn + dict) :=
  match r with
  | get_queue_url name =>
      match by_name name (queues s) with
      | Some q => (s, inr [("QueueUrl", PStr (queue_handle q))])
      | None => (s, inl NotFoundError)
      end
  | create_queue name =>
      match by_name name (queues s) with
      | Some q => (s, inr [("QueueUrl", PStr (queue_handle q))])
      | None =>
          let h := handle_of (settings s) name in
          (State (settings s) (queues s ++ [Queue name h []])
                 (clock s) (accepted s),
           inr [("QueueUrl", PStr h)])
      end
  | send_message url body attributes =>
      match by_handle url (queues s) with
      | None => (s, inl (ValidationError InvalidHandle))
      | Some q =>
          if negb (Nat.leb (String.length body) (size_limit (settings s))) then
            (s, inl (ValidationError OversizePayload))
          else if negb (forallb (fun kv => well_typed (snd kv)) attributes) then
            (s, inl (ValidationError MalformedAttribute))
          else
            let m := Message (message_id (accepted s)) body attributes None in
            (State (settings s)
                   (store (Queue (queue_name q) (queue_handle q)
                                 (messages q ++ [m])) (queues s))
                   (clock s) (S (accepted s)),
             inr [("MessageId", PStr (MessageId m))])
      end
  | receive_message url _ names maxMessages visibilityTimeout _ token =>
      match by_handle url (queues s) with
      | None => (s, inl (ValidationError InvalidHandle))
      | Some q =>
          let (batch, ms) :=
            attempt (clock s) visibilityTimeout token (Z.to_nat maxMessages)
                    (messages q) in
          (State (settings s)
                 (store (Queue (queue_name q) (queue_handle q) ms) (queues s))
                 (clock s) (accepted s),
           inr [("Messages", PList (map (inbound names) batch))])
      end
  end.

#[global] Instance backend : Backend state := answer.

End NerveMQ.

(** ** Sample services *)

(** A service whose handles are URLs under the scripts' endpoint. *)
Definition local_settings : NerveMQ.config :=
  NerveMQ.Config (fun name => (Example.host_url ++ "/" ++ name)%string) 4096.

Definition bruh_url : string := "http://localhost:8080/sqs/bruh".

(** The queue ['bruh'] exists and is empty. *)
Definition bruh_empty : NerveMQ.state :=
  NerveMQ.State local_settings [NerveMQ.Queue "bruh" bruh_url []] 0 0.

(** The queue ['bruh'] holds two messages: one with the attributes ['Test']
    and ['Other'], one with the attribute ['Other'] only. *)
Definition bruh_two : NerveMQ.state :=
  NerveMQ.State local_settings
    [NerveMQ.Queue "bruh" bruh_url
       [NerveMQ.Message "m0" "first"
          [("Test", PDict [("StringValue", PStr "a"); ("DataType", PStr "String")]);
           ("Other", PDict [("StringValue", PStr "7"); ("DataType", PStr "Number")])]
          None;
        NerveMQ.Message "m1" "second"
          [("Other", PDict [("StringValue", PStr "8"); ("DataType", PStr "Number")])]
          None]]
    0 2.

(** The lookup fails in transport, the create call succeeds. *)
Definition lookup_unreachable : list (exn + dict) :=
  [inl TransportError; inr [("QueueUrl", PStr bruh_url)]].

(** The lookup reports no such queue, the create call succeeds. *)
Definition lookup_not_found : list (exn + dict) :=
  [inl NotFoundError; inr [("QueueUrl", PStr bruh_url)]].

(** The lookup succeeds. *)
Definition lookup_found : list (exn + dict) :=
  [inr [("QueueUrl", PStr bruh_url)]].

(** Every call succeeds, and the lookup's response has no ['QueueUrl']. *)
Definition lookup_without_url : list (exn + dict) :=
  [inr []; inr [("MessageId", PStr "m0")]; inr [("Messages", PList [])]].

(** The same behind a client that checks the handle. *)
Definition lookup_without_url_checked : Validating.validated (list (exn + dict)) :=
  Validating.Validated lookup_without_url.

(** * Properties *)

Section Running.

Context {Service : Type} `{Backend Service}.

Lemma Example_main_steps :
  Example.main = workflow example_sqs ["Test"].
Proof. reflexivity. Qed.

Lemma Nervemq_example_main_steps :
  Nervemq_example.main = workflow nervemq_example_sqs ["All"].
Proof. reflexivity. Qed.

Lemma run_bind A B (c : script Service A) (k : A -> script Service B) w :
  run (bind c k) w =
  match run c w with
  | (inl e, w') => (inl e, w')
  | (inr a, w') => run (k a) w'
  end.
Proof.
  unfold run; simpl. destruct (runState (unEitherT c) w) as [[e|a] w']; reflexivity.
Qed.

Lemma run_try_except A (body handler : script Service A) w :
  run (try_except body handler) w =
  match run body w with
  | (inl _, w') => run handler w'
  | (inr a, w') => (inr a, w')
  end.
Proof.
  unfold run, try_except; simpl.
  destruct (runState (unEitherT body) w) as [[e|a] w']; reflexivity.
Qed.

Lemma run_invoke sqs r (w : world Service) :
  run (invoke sqs r) w =
  (snd (serve (service w) sqs r),
   World (fst (serve (service w) sqs r))
         (calls w ++ [Call sqs r (snd (serve (service w) sqs r))])
         (stdout w)).
Proof.
  unfold run, invoke; simpl. destruct (serve (service w) sqs r); reflexivity.
Qed.

Lemma run_print label v (w : world Service) :
  run (print label v) w =
  (inr tt, World (service w) (calls w) (stdout w ++ [Line label v])).
Proof. reflexivity. Qed.

End Running.

Section Resolve.

Context {Service : Type} `{Backend Service}.

(** What [ResolveQueue] does from any world, by the outcome of the lookup
    and, when it raised, of the create call. *)
Lemma run_ResolveQueue sqs name (w : world Service) :
  run (ResolveQueue sqs name) w =
  let r1 := snd (serve (service w) sqs (get_queue_url name)) in
  let s1 := fst (serve (service w) sqs (get_queue_url name)) in
  let c1 := Call sqs (get_queue_url name) r1 in
  match r1 with
  | inr res => (inr (dict_get "QueueUrl" res),
                World s1 (calls w ++ [c1]) (stdout w))
  | inl _ =>
      let r2 := snd (serve s1 sqs (create_queue name)) in
      let s2 := fst (serve s1 sqs (create_queue name)) in
      let c2 := Call sqs (create_queue name) r2 in
      (match r2 with
       | inr res => inr (dict_get "QueueUrl" res)
       | inl e => inl e
       end,
       World s2 ((calls w ++ [c1]) ++ [c2]) (stdout w))
  end.
Proof.
  unfold ResolveQueue. rewrite run_try_except, run_bind, run_invoke.
  destruct (snd (serve (service w) sqs (get_queue_url name))) as [e|res] eqn:E1;
    cbn zeta.
  - rewrite run_bind, run_invoke. cbn [service calls stdout].
    destruct (snd (serve _ sqs (create_queue name))) as [e'|res'] eqn:E2;
      reflexivity.
  - reflexivity.
Qed.

(** Claim C1, as the scripts have it.  The [except:] of [ResolveQueue] is
    bare: whatever the lookup raises, not found or not, the create call is
    made next, exactly once, and the lookup's exception is dropped.
    [ResolveQueue] then returns the handle in the create response, or raises
    what the create call raised, unchanged. *)
Theorem lookup_error_falls_back (s : Service) sqs name e :
  snd (serve s sqs (get_queue_url name)) = inl e ->
  let s1 := fst (serve s sqs (get_queue_url name)) in
  let r2 := snd (serve s1 sqs (create_queue name)) in
  calls (snd (run (ResolveQueue sqs name) (start s))) =
    [Call sqs (get_queue_url name) (inl e); Call sqs (create_queue name) r2] /\
  fst (run (ResolveQueue sqs name) (start s)) =
    match r2 with
    | inr res => inr (dict_get "QueueUrl" res)
    | inl e' => inl e'
    end.
Proof.
  intros E. rewrite run_ResolveQueue. cbn [start service calls stdout].
  rewrite E. cbn. split; reflexivity.
Qed.

(** Claim C2.  In a run of [ResolveQueue]: when the lookup raises
    [NotFoundError], [create_queue] is invoked exactly once; when the lookup
    succeeds, [create_queue] is not invoked at all and the handle returned is
    the ['QueueUrl'] of the lookup's response. *)
Theorem resolve_creates_once_when_not_found (s : Service) sqs name :
  (snd (serve s sqs (get_queue_url name)) = inl NotFoundError ->
   created (calls (snd (run (ResolveQueue sqs name) (start s)))) = 1) /\
  (forall res, snd (serve s sqs (get_queue_url name)) = inr res ->
   created (calls (snd (run (ResolveQueue sqs name) (start s)))) = 0 /\
   fst (run (ResolveQueue sqs name) (start s)) = inr (dict_get "QueueUrl" res)).
Proof.
  split.
  - intros E. rewrite run_ResolveQueue. cbn [start service calls stdout].
    rewrite E. reflexivity.
  - intros res E. rewrite run_ResolveQueue. cbn [start service calls stdout].
    rewrite E. split; reflexivity.
Qed.

End Resolve.

Section Workflow.

Context {Service : Type} `{Backend Service}.

Lemma replays_app (s s1 s2 : Service) cs1 cs2 :
  replays s cs1 s1 -> replays s1 cs2 s2 -> replays s (cs1 ++ cs2) s2.
Proof.
  revert s. induction cs1 as [|c cs1 IH]; intros s H1 H2; simpl in *.
  - subst. exact H2.
  - destruct H1 as [Hr H1]. split; [exact Hr|]. now apply IH.
Qed.

Lemma replays_ResolveQueue sqs name (s : Service) :
  replays s (calls (snd (run (ResolveQueue sqs name) (start s))))
            (service (snd (run (ResolveQueue sqs name) (start s)))).
Proof.
  rewrite run_ResolveQueue. cbn [start service calls stdout app].
  destruct (snd (serve s sqs (get_queue_url name))) eqn:E; cbn; rewrite ?E; auto.
Qed.

Lemma steps_ResolveQueue sqs name (w : world Service) :
  exists cs,
    calls (snd (run (ResolveQueue sqs name) w)) = calls w ++ cs /\
    stdout (snd (run (ResolveQueue sqs name) w)) = stdout w /\
    Forall (fun c => step_of c = Resolve /\ call_by c = sqs) cs.
Proof.
  rewrite run_ResolveQueue. cbv zeta.
  destruct (snd (serve (service w) sqs (get_queue_url name))); cbn [snd calls stdout].
  - eexists. rewrite <- app_assoc. split; [reflexivity|]. split; [reflexivity|].
    repeat constructor.
  - eexists. split; [reflexivity|]. split; [reflexivity|]. repeat constructor.
Qed.

(** What the whole workflow does after [ResolveQueue]. *)
Lemma run_workflow sqs names (w : world Service) :
  run (workflow sqs names) w =
  match run (ResolveQueue sqs "bruh") w with
  | (inl e, w1) => (inl e, w1)
  | (inr url, w1) =>
      let send := send_message url "Hello World!" test_attributes in
      let r2 := snd (serve (service w1) sqs send) in
      let s2 := fst (serve (service w1) sqs send) in
      let out1 := stdout w1 ++ [Line "Queue URL: " url] in
      let log2 := calls w1 ++ [Call sqs send r2] in
      match r2 with
      | inl e => (inl e, World s2 log2 out1)
      | inr response =>
          let receive := receive_message url ["All"] names 10 0 0 "1" in
          let r3 := snd (serve s2 sqs receive) in
          let s3 := fst (serve s2 sqs receive) in
          let out2 := out1 ++ [Line "Message ID: " (dict_get "MessageId" response)] in
          let log3 := log2 ++ [Call sqs receive r3] in
          match r3 with
          | inl e => (inl e, World s3 log3 out2)
          | inr response' =>
              (inr tt,
               World s3 log3
                 (out2 ++ [Line "Messages: " (dict_get "Messages" response')]))
          end
      end
  end.
Proof.
  unfold workflow. rewrite run_bind.
  destruct (run (ResolveQueue sqs "bruh") w) as [[e|url] w1]; [reflexivity|].
  rewrite run_bind, run_print, run_bind. unfold PublishMessage.
  rewrite run_invoke. cbn [service calls stdout]. cbv zeta.
  destruct (snd (serve (service w1) sqs _)) as [e|response]; [reflexivity|].
  rewrite run_bind, run_print, run_bind. unfold PollReceive.
  rewrite run_invoke. cbn [service calls stdout].
  destruct (snd (serve _ sqs (receive_message _ _ _ _ _ _ _))) as [e|response'];
    reflexivity.
Qed.

(** The only [send_message] the workflow makes is the one of lines 26-32. *)
Lemma workflow_sends sqs names (s : Service) c url body attributes :
  In c (calls (snd (run (workflow sqs names) (start s)))) ->
  call_req c = send_message url body attributes ->
  body = "Hello World!" /\ attributes = test_attributes.
Proof.
  rewrite run_workflow, run_ResolveQueue. cbv zeta.
  cbn [start service calls stdout app].
  intros Hin Hreq.
  assert (Hsend : forall u r, c = Call sqs (send_message u "Hello World!"
                                              test_attributes) r ->
                  body = "Hello World!" /\ attributes = test_attributes).
  { intros u r ->. cbn in Hreq. injection Hreq as _ <- <-. auto. }
  assert (Hother : forall r0 r,
            c = Call sqs r0 r ->
            (forall u b a, r0 <> send_message u b a) ->
            body = "Hello World!" /\ attributes = test_attributes).
  { intros r0 r -> Hne. cbn in Hreq. now apply Hne in Hreq. }
  destruct (snd (serve s sqs (get_queue_url "bruh"))) as [e|res];
    [destruct (snd (serve _ sqs (create_queue "bruh"))) as [e'|res]|];
    cbn [fst snd service calls] in Hin;
    repeat match type of Hin with
           | context [match ?x with inl _ => _ | inr _ => _ end] =>
               destruct x; cbn [fst snd service calls app] in Hin
           end;
    cbn [In app] in Hin;
    repeat destruct Hin as [Hin|Hin];
    try contradiction;
    solve [ eapply Hsend; symmetry; exact Hin
          | eapply Hother; [symmetry; exact Hin | discriminate] ].
Qed.

End Workflow.

Section Order.

Context {Service : Type} `{Backend Service}.

(** Claim C10, as the scripts have it.  When the call that resolves the
    queue (the lookup, or the create call after a failed lookup) succeeds with
    a response that has no ['QueueUrl'], the workflow goes on with [None] for
    a handle: nothing checks it, and the next call is [send_message] with
    [QueueUrl=None].  [receive_message] is called, with [QueueUrl=None] as
    well, only when that send returns; when the send raises, as it does
    wherever a missing handle is refused, the run ends with that exception
    and no receive is made. *)
Theorem workflow_proceeds_without_handle (s : Service) sqs names :
  (exists res,
      snd (serve s sqs (get_queue_url "bruh")) = inr res /\
      dict_get "QueueUrl" res = PNone) \/
  (exists e res,
      snd (serve s sqs (get_queue_url "bruh")) = inl e /\
      snd (serve (fst (serve s sqs (get_queue_url "bruh"))) sqs
                 (create_queue "bruh")) = inr res /\
      dict_get "QueueUrl" res = PNone) ->
  exists resolving r2 rest,
    calls (snd (run (workflow sqs names) (start s))) =
      resolving ++
      Call sqs (send_message PNone "Hello World!" test_attributes) r2 :: rest /\
    Forall (fun c => step_of c = Resolve) resolving /\
    match r2 with
    | inr _ =>
        exists r3,
          rest = [Call sqs (receive_message PNone ["All"] names 10 0 0 "1") r3]
    | inl e =>
        rest = [] /\ fst (run (workflow sqs names) (start s)) = inl e
    end.
Proof.
  intros Hres. rewrite run_workflow, run_ResolveQueue.
  cbn [start service calls stdout app]. cbv zeta.
  destruct Hres as [(res & E1 & Hnone) | (e & res & E1 & E2 & Hnone)].
  - rewrite E1, Hnone. cbn [service calls stdout].
    set (s1 := fst (serve s sqs (get_queue_url "bruh"))).
    destruct (snd (serve s1 sqs (send_message PNone _ _))) as [e2|resp] eqn:E3.
    + exists [Call sqs (get_queue_url "bruh") (inr res)], (inl e2), [].
      repeat split. repeat constructor.
    + set (s2 := fst (serve s1 sqs (send_message PNone _ _))).
      destruct (snd (serve s2 sqs (receive_message PNone _ _ _ _ _ _)))
        as [e3|resp3] eqn:E4;
        eexists [_], (inr resp), [_]; cbn;
        (repeat split; [repeat constructor|]); eexists; reflexivity.
  - rewrite E1. cbn [fst snd]. rewrite E2, Hnone. cbn [service calls stdout].
    set (s1 := fst (serve _ sqs (create_queue "bruh"))).
    destruct (snd (serve s1 sqs (send_message PNone _ _))) as [e2|resp] eqn:E3.
    + eexists [_; _], (inl e2), []. cbn. repeat split. repeat constructor.
    + set (s2 := fst (serve s1 sqs (send_message PNone _ _))).
      destruct (snd (serve s2 sqs (receive_message PNone _ _ _ _ _ _)))
        as [e3|resp3] eqn:E4;
        eexists [_; _], (inr resp), [_]; cbn;
        (repeat split; [repeat constructor|]); eexists; reflexivity.
Qed.

(** Behind a client that checks the handle, no receive is ever made with
    [QueueUrl=None], whatever the service answers. *)
Lemma checked_client_never_receives_without_handle
    (v : Validating.validated Service) sqs names r3 :
  ~ In (Call sqs (receive_message PNone ["All"] names 10 0 0 "1") r3)
       (calls (snd (run (workflow sqs names) (start v)))).
Proof.
  rewrite run_workflow.
  destruct (steps_ResolveQueue sqs "bruh" (start v)) as (cs & Hcs & _ & Hall).
  destruct (run (ResolveQueue sqs "bruh") (start v)) as [[e|url] w1];
    cbn [fst snd] in *; cbn [start calls app] in Hcs.
  - rewrite Hcs. intros Hin. rewrite Forall_forall in Hall.
    apply Hall in Hin. destruct Hin as [Hstep _]. discriminate Hstep.
  - assert (Hres : forall c, In c (calls w1) -> step_of c = Resolve).
    { rewrite Hcs. rewrite Forall_forall in Hall. intros c Hc.
      now destruct (Hall c Hc). }
    cbv zeta.
    assert (Hnone : url = PNone ->
              snd (serve (service w1) sqs
                     (send_message url "Hello World!" test_attributes)) =
              inl (ValidationError InvalidHandle)).
    { intros ->. reflexivity. }
    destruct (snd (serve (service w1) sqs (send_message url _ _)))
      as [e2|response] eqn:E2; cbn [snd calls].
    + intros Hin. apply in_app_or in Hin. destruct Hin as [Hin|[Hin|[]]].
      * apply Hres in Hin. discriminate Hin.
      * discriminate Hin.
    + assert (Hurl : url <> PNone).
      { intros ->. specialize (Hnone eq_refl). discriminate Hnone. }
      destruct (snd (serve _ sqs (receive_message url _ _ _ _ _ _)));
        cbn [snd calls]; intros Hin;
        apply in_app_or in Hin; destruct Hin as [Hin|[Hin|[]]];
        try (apply in_app_or in Hin; destruct Hin as [Hin|[Hin|[]]]);
        try (apply Hres in Hin; discriminate Hin);
        try discriminate Hin;
        injection Hin as Hu _; now apply Hurl.
Qed.

End Order.

Section Sequential.

Context {Service : Type} `{Backend Service}.

(** Claim C8.  In every run of the workflow the log of calls is the calls of
    [ResolveQueue] followed by at most one [send_message] and then at most
    one [receive_message], in that order, and all three steps are there when
    the run completes.  The send and the receive are made with the handle
    [ResolveQueue] returned and with literals otherwise, so the handle is all
    that passes from one step to the next.  Each call is served in the state
    in which the call before it left the service. *)
Theorem workflow_is_sequential (s : Service) sqs names :
  let resolved := run (ResolveQueue sqs "bruh") (start s) in
  let finished := run (workflow sqs names) (start s) in
  exists rest,
    calls (snd finished) = calls (snd resolved) ++ rest /\
    Forall (fun c => step_of c = Resolve) (calls (snd resolved)) /\
    (map step_of rest = [] \/ map step_of rest = [Publish] \/
     map step_of rest = [Publish; Poll]) /\
    (forall c, In c rest ->
       exists url,
         fst resolved = inr url /\
         (call_req c = send_message url "Hello World!" test_attributes \/
          call_req c = receive_message url ["All"] names 10 0 0 "1")) /\
    (fst finished = inr tt -> map step_of rest = [Publish; Poll]) /\
    replays s (calls (snd finished)) (service (snd finished)).
Proof.
  cbv zeta. rewrite run_workflow.
  pose proof (replays_ResolveQueue sqs "bruh" s) as Hrep.
  destruct (steps_ResolveQueue sqs "bruh" (start s)) as (cs & Hcs & _ & Hall).
  assert (Hres : Forall (fun c => step_of c = Resolve)
                   (calls (snd (run (ResolveQueue sqs "bruh") (start s))))).
  { rewrite Hcs. cbn [start calls app]. eapply Forall_impl; [|exact Hall].
    intros c [Hc _]. exact Hc. }
  clear cs Hcs Hall.
  destruct (run (ResolveQueue sqs "bruh") (start s)) as [[e|url] w1];
    cbn [fst snd] in *.
  - exists []. rewrite app_nil_r. repeat split; auto.
    + intros c [].
    + discriminate.
  - cbv zeta.
    destruct (snd (serve (service w1) sqs (send_message url _ _)))
      as [e2|response] eqn:E2.
    + eexists [_]. cbn [fst snd calls service]. repeat split; auto.
      * intros c [<-|[]]. exists url. cbn. auto.
      * discriminate.
      * eapply replays_app; [exact Hrep|]. cbn. auto.
    + destruct (snd (serve _ sqs (receive_message url _ _ _ _ _ _)))
        as [e3|response'] eqn:E3.
      * eexists [_; _]. cbn [fst snd calls service]. rewrite <- app_assoc.
        repeat split; auto.
        -- intros c [<-|[<-|[]]]; exists url; cbn; auto.
        -- eapply replays_app; [exact Hrep|]. cbn. auto.
      * eexists [_; _]. cbn [fst snd calls service]. rewrite <- app_assoc.
        repeat split; auto.
        -- intros c [<-|[<-|[]]]; exists url; cbn; auto.
        -- eapply replays_app; [exact Hrep|]. cbn. auto.
Qed.

End Sequential.

Section Equivalence.

Context {Service : Type} `{Backend Service}.

Local Ltac same_masked Hc :=
  cbn [fst snd service calls stdout map app]; unfold masked;
  cbn [call_by call_req call_res without_names]; rewrite ?Hc; auto.

Lemma masked_workflow sqs1 sqs2 names1 names2 (s : Service) :
  blind Service ->
  without_credentials sqs1 = without_credentials sqs2 ->
  let a := run (workflow sqs1 names1) (start s) in
  let b := run (workflow sqs2 names2) (start s) in
  fst a = fst b /\ service (snd a) = service (snd b) /\
  stdout (snd a) = stdout (snd b) /\
  map masked (calls (snd a)) = map masked (calls (snd b)).
Proof.
  intros Hb Hc. cbv zeta.
  assert (E1 : forall s r, serve s sqs1 r =
                           serve s (without_credentials sqs2) (without_names r)).
  { intros. rewrite <- Hc. apply Hb. }
  assert (E2 : forall s r, serve s sqs2 r =
                           serve s (without_credentials sqs2) (without_names r)).
  { intros. apply Hb. }
  rewrite !run_workflow, !run_ResolveQueue. cbv zeta.
  cbn [start service calls stdout app].
  rewrite !E1, !E2. cbn [without_names].
  destruct (serve s _ (get_queue_url "bruh")) as [s1 [e|res]]; cbn [fst snd].
  - rewrite ?E1, ?E2. cbn [without_names].
    destruct (serve s1 _ (create_queue "bruh")) as [s2 [e'|res]]; cbn [fst snd].
    + same_masked Hc.
    + cbn [service calls stdout]. rewrite ?E1, ?E2. cbn [without_names].
      destruct (serve s2 _ (send_message _ _ _)) as [s3 [e3|resp]]; cbn [fst snd].
      * same_masked Hc.
      * rewrite ?E1, ?E2. cbn [without_names].
        destruct (serve s3 _ (receive_message _ _ _ _ _ _ _)) as [s4 [e4|resp4]];
          same_masked Hc.
  - cbn [service calls stdout]. rewrite ?E1, ?E2. cbn [without_names].
    destruct (serve s1 _ (send_message _ _ _)) as [s3 [e3|resp]]; cbn [fst snd].
    + same_masked Hc.
    + rewrite ?E1, ?E2. cbn [without_names].
      destruct (serve s3 _ (receive_message _ _ _ _ _ _ _)) as [s4 [e4|resp4]];
        same_masked Hc.
Qed.

(** Claim C9.  Against a service whose answers depend neither on the
    credentials nor on the requested message-attribute names, [example.py]
    and [nervemq_example/main.py] end the same way, leave the service in the
    same state, print the same lines and make the same calls, up to the
    credentials of the client and the [MessageAttributeNames] of the
    receive. *)
Theorem scripts_equivalent (s : Service) :
  blind Service ->
  let a := run Example.main (start s) in
  let b := run Nervemq_example.main (start s) in
  fst a = fst b /\ service (snd a) = service (snd b) /\
  stdout (snd a) = stdout (snd b) /\
  map masked (calls (snd a)) = map masked (calls (snd b)).
Proof.
  intros Hb. rewrite Example_main_steps, Nervemq_example_main_steps.
  apply masked_workflow; [exact Hb | reflexivity].
Qed.

End Equivalence.

Section Outcome.

Context {Service : Type} `{Backend Service}.

(** Split the run of the workflow by the outcome of each call it makes. *)
Local Ltac by_calls :=
  rewrite ?run_workflow, ?run_ResolveQueue; cbv zeta;
  cbn [start service calls stdout app fst snd];
  repeat match goal with
         | |- context [match snd (serve ?a ?b ?c) with
                       | inl _ => _
                       | inr _ => _
                       end] =>
             destruct (snd (serve a b c)) eqn:?;
             cbn [start service calls stdout app fst snd]
         end.

(** Name the last call of a log that is written out. *)
Local Ltac split_last :=
  first [ eexists [], _; split; [reflexivity|]
        | eexists [_], _; split; [reflexivity|]
        | eexists [_; _], _; split; [reflexivity|]
        | eexists [_; _; _], _; split; [reflexivity|] ].

(** [ResolveQueue] asks for one queue name throughout, prints nothing, and
    ends as its last call ended: it returns the ['QueueUrl'] of that call's
    response ([None] when the response has none) or raises what that call
    raised, and a call that raised out of [ResolveQueue] is the create
    call. *)
Theorem resolve_ends_as_last_call (s : Service) sqs name :
  let resolved := run (ResolveQueue sqs name) (start s) in
  Forall (fun c => call_by c = sqs /\
                   (call_req c = get_queue_url name \/
                    call_req c = create_queue name))
         (calls (snd resolved)) /\
  stdout (snd resolved) = [] /\
  exists before last,
    calls (snd resolved) = before ++ [last] /\
    match call_res last with
    | inr res => fst resolved = inr (dict_get "QueueUrl" res)
    | inl e => fst resolved = inl e /\ call_req last = create_queue name
    end.
Proof.
  by_calls; (split; [repeat constructor; auto|]); (split; [reflexivity|]);
    split_last; cbn [call_res call_req];
    repeat match goal with
           | E : _ = ?r |- context [match ?r with inl _ => _ | inr _ => _ end] =>
               rewrite <- E
           end; auto.
Qed.

(** A run of the workflow ends as its last call ended.  It completes exactly
    when that call is a [receive_message] that returned; otherwise it raises
    what that call raised, and that call is never the lookup: the scripts
    raise nothing of their own and let no other exception out. *)
Theorem main_ends_as_last_call (s : Service) sqs names :
  let finished := run (workflow sqs names) (start s) in
  exists before last,
    calls (snd finished) = before ++ [last] /\
    match fst finished with
    | inr _ => step_of last = Poll /\ exists response, call_res last = inr response
    | inl e => call_res last = inl e /\ is_lookup last = false
    end.
Proof.
  by_calls; split_last; cbn; eauto.
Qed.

(** No call is repeated.  A run of the workflow makes the lookup once, first,
    and after it at most one create, one send and one receive, four calls at
    most, all through the one client and, for the first two, for the queue
    ['bruh']. *)
Theorem main_never_retries (s : Service) sqs names :
  let log := calls (snd (run (workflow sqs names) (start s))) in
  hd_error log =
    Some (Call sqs (get_queue_url "bruh")
                   (snd (serve s sqs (get_queue_url "bruh")))) /\
  invoked is_lookup log = 1 /\
  invoked is_create log <= 1 /\
  invoked is_send log <= 1 /\
  invoked is_receive log <= 1 /\
  length log <= 4 /\
  Forall (fun c => call_by c = sqs) log /\
  Forall (fun c => step_of c = Resolve ->
                   call_req c = get_queue_url "bruh" \/
                   call_req c = create_queue "bruh") log.
Proof.
  by_calls;
    repeat match goal with
           | E : snd (serve s sqs (get_queue_url "bruh")) = _ |- _ => rewrite E
           end;
    cbn; repeat split; auto; try lia;
    repeat apply Forall_cons; try apply Forall_nil; cbn; auto; discriminate.
Qed.

(** What is printed follows the calls.  Nothing is printed before the queue
    is resolved; the handle is printed once it is, before the send; the
    ['MessageId'] of the send's response once the send returned; the
    ['Messages'] of the receive's response once the receive returned, which
    makes three lines.  A key the response lacks is printed as [None]. *)
Theorem main_prints_what_it_got (s : Service) sqs names :
  let finished := run (workflow sqs names) (start s) in
  let log := calls (snd finished) in
  let out := stdout (snd finished) in
  (invoked is_send log = 0 -> out = []) /\
  (forall url body attributes r,
     In (Call sqs (send_message url body attributes) r) log ->
     nth_error out 0 = Some (Line "Queue URL: " url) /\
     match r with
     | inr response =>
         nth_error out 1 =
           Some (Line "Message ID: " (dict_get "MessageId" response))
     | inl _ => length out = 1
     end) /\
  (forall url attributeNames messageAttributeNames maxMessages
          visibilityTimeout waitDuration token r,
     In (Call sqs (receive_message url attributeNames messageAttributeNames
                     maxMessages visibilityTimeout waitDuration token) r) log ->
     match r with
     | inr response =>
         nth_error out 2 =
           Some (Line "Messages: " (dict_get "Messages" response)) /\
         length out = 3
     | inl _ => length out = 2
     end).
Proof.
  by_calls; cbn [invoked filter is_send call_req length];
    (split; [try discriminate; reflexivity|]);
    split; intros; cbn [In] in *;
    repeat match goal with
           | Hin : _ \/ _ |- _ => destruct Hin as [Hin|Hin]
           | Hin : False |- _ => destruct Hin
           | Hin : Call _ _ _ = Call _ _ _ |- _ =>
               first [ discriminate Hin | injection Hin as ? ? ]
           end;
    subst;
    repeat match goal with
           | Heq : send_message _ _ _ = send_message _ _ _ |- _ =>
               injection Heq as ? ? ?; subst
           | Heq : receive_message _ _ _ _ _ _ _ = receive_message _ _ _ _ _ _ _
             |- _ => injection Heq as ? ? ? ? ? ? ?; subst
           | Heq : _ = _ |- _ => discriminate Heq
           end;
    cbn; auto.
Qed.

Lemma workflow_until_receive sqs1 sqs2 names1 names2 (s : Service) :
  credential_blind Service ->
  without_credentials sqs1 = without_credentials sqs2 ->
  let a := run (workflow sqs1 names1) (start s) in
  let b := run (workflow sqs2 names2) (start s) in
  map masked (filter not_receive (calls (snd a))) =
    map masked (filter not_receive (calls (snd b))) /\
  invoked is_receive (calls (snd a)) = invoked is_receive (calls (snd b)) /\
  firstn 2 (stdout (snd a)) = firstn 2 (stdout (snd b)) /\
  (invoked is_receive (calls (snd a)) = 0 ->
   fst a = fst b /\ service (snd a) = service (snd b)).
Proof.
  intros Hb Hc. cbv zeta.
  assert (E1 : forall s r, serve s sqs1 r = serve s (without_credentials sqs2) r).
  { intros. rewrite <- Hc. apply Hb. }
  assert (E2 : forall s r, serve s sqs2 r = serve s (without_credentials sqs2) r).
  { intros. apply Hb. }
  rewrite !run_workflow, !run_ResolveQueue. cbv zeta.
  cbn [start service calls stdout app fst snd].
  rewrite !E1, !E2.
  repeat match goal with
         | |- context [match snd (serve ?a ?b ?c) with
                       | inl _ => _
                       | inr _ => _
                       end] =>
             destruct (serve a b c) as [? [?|?]];
             cbn [start service calls stdout app fst snd];
             rewrite ?E1, ?E2
         end;
    cbn [filter map not_receive is_receive call_req negb invoked length firstn];
    unfold masked; cbn [call_by call_req call_res without_names];
    rewrite ?Hc; repeat split; auto; discriminate.
Qed.

(** Against a service that does not look at the credentials, the two scripts
    go the same way up to the receive: the same calls with the same answers
    for the lookup, the create and the send, the same first two lines
    printed, and both make the receive or neither does.  When neither does,
    they end the same with the service in the same state.  Only the receive,
    with its different [MessageAttributeNames], can tell them apart. *)
Theorem scripts_differ_only_in_receive (s : Service) :
  credential_blind Service ->
  let a := run Example.main (start s) in
  let b := run Nervemq_example.main (start s) in
  map masked (filter not_receive (calls (snd a))) =
    map masked (filter not_receive (calls (snd b))) /\
  invoked is_receive (calls (snd a)) = invoked is_receive (calls (snd b)) /\
  firstn 2 (stdout (snd a)) = firstn 2 (stdout (snd b)) /\
  (invoked is_receive (calls (snd a)) = 0 ->
   fst a = fst b /\ service (snd a) = service (snd b)).
Proof.
  intros Hb. rewrite Example_main_steps, Nervemq_example_main_steps.
  apply workflow_until_receive; [exact Hb | reflexivity].
Qed.

End Outcome.

Section Service.

Import NerveMQ.


Lemma by_handle_store url qs q q' :
  by_handle url qs = Some q ->
  queue_handle q' = queue_handle q ->
  by_handle url (store q' qs) = Some q'.
Proof.
  destruct url as [|h| | |]; try discriminate. cbn.
  intros Hf Hh. induction qs as [|q0 qs IH]; cbn in *; [discriminate|].
  destruct (String.eqb (queue_handle q0) h) eqn:E0.
  - injection Hf as ->. rewrite Hh, String.eqb_refl. cbn.
    now rewrite Hh, E0.
  - destruct (String.eqb (queue_handle q0) (queue_handle q')) eqn:E1.
    + apply find_some in Hf. destruct Hf as [_ Hq].
      apply String.eqb_eq in Hq, E1. rewrite Hh, Hq in E1.
      rewrite E1, String.eqb_refl in E0. discriminate.
    + cbn. rewrite E0. now apply IH.
Qed.

Lemma store_store q' qs : store q' (store q' qs) = store q' qs.
Proof.
  induction qs as [|q qs IH]; cbn; [reflexivity|].
  destruct (String.eqb (queue_handle q) (queue_handle q')) eqn:E; cbn.
  - now rewrite String.eqb_refl.
  - now rewrite E, IH.
Qed.


Lemma publish_accepted (s : state) sqs url q :
  by_handle url (queues s) = Some q ->
  String.length "Hello World!" <= size_limit (settings s) ->
  serve s sqs (send_message url "Hello World!" test_attributes) =
  (State (settings s)
         (store (Queue (queue_name q) (queue_handle q)
                   (messages q ++
                    [Message (message_id (accepted s)) "Hello World!"
                             test_attributes None]))
                (queues s))
         (clock s) (S (accepted s)),
   inr [("MessageId", PStr (message_id (accepted s)))]).
Proof.
  intros Hq Hsize. unfold serve, backend, answer. rewrite Hq.
  apply Nat.leb_le in Hsize. rewrite Hsize. reflexivity.
Qed.

Lemma poll_answered (s : state) sqs url q attributeNames names n vis wait token :
  by_handle url (queues s) = Some q ->
  serve s sqs (receive_message url attributeNames names n vis wait token) =
  (State (settings s)
         (store (Queue (queue_name q) (queue_handle q)
                   (snd (attempt (clock s) vis token (Z.to_nat n) (messages q))))
                (queues s))
         (clock s) (accepted s),
   inr [("Messages",
         PList (map (inbound names)
                    (fst (attempt (clock s) vis token (Z.to_nat n) (messages q)))))]).
Proof.
  intros Hq. unfold serve, backend, answer. rewrite Hq.
  destruct (attempt _ _ _ _ _); reflexivity.
Qed.

(** Claim C4.  On a queue that is empty, publishing ["Hello World!"] and then
    polling with [maxMessages=10], [visibilityTimeout=0] and
    [waitDuration=0] returns a batch of exactly one message, whose body is
    ["Hello World!"] and whose [MessageId] is the one the publish
    returned. *)
Theorem publish_then_poll (s : state) sqs url q attributeNames names token :
  by_handle url (queues s) = Some q ->
  messages q = [] ->
  String.length "Hello World!" <= size_limit (settings s) ->
  let published :=
    run (PublishMessage sqs url "Hello World!" test_attributes) (start s) in
  let polled :=
    run (PollReceive sqs url attributeNames names 10 0 0 token) (snd published) in
  exists response received msg,
    fst published = inr response /\
    fst polled = inr received /\
    dict_get "Messages" received = PList [PDict msg] /\
    dict_get "Body" msg = PStr "Hello World!" /\
    dict_get "MessageId" msg = dict_get "MessageId" response /\
    dict_get "MessageId" response <> PNone.
Proof.
  intros Hq Hempty Hsize. cbv zeta. unfold PublishMessage, PollReceive.
  rewrite !run_invoke. cbn [start service calls stdout fst snd].
  erewrite publish_accepted by eassumption. cbn [fst snd].
  erewrite poll_answered
    by (cbn [queues]; eapply by_handle_store; [exact Hq | reflexivity]).
  rewrite Hempty. cbn.
  do 3 eexists. repeat split. discriminate.
Qed.

Lemma deliver_keeps now vis token n ms :
  (0 <? vis)%Z = false -> snd (deliver now vis token n ms) = ms.
Proof.
  intros V. revert n. induction ms as [|m ms IH]; intros n; cbn; [reflexivity|].
  destruct n as [|n]; [reflexivity|].
  destruct (visible now m).
  - specialize (IH n). destruct (deliver now vis token n ms) as [batch rest].
    cbn in *. unfold hide. rewrite V. now rewrite IH.
  - specialize (IH (S n)). destruct (deliver now vis token (S n) ms) as [batch rest].
    cbn in *. now rewrite IH.
Qed.

Lemma deliver_nothing now vis token n ms :
  fst (deliver now vis token n ms) = [] -> snd (deliver now vis token n ms) = ms.
Proof.
  revert n. induction ms as [|m ms IH]; intros n; cbn; [reflexivity|].
  destruct n as [|n]; [reflexivity|].
  destruct (visible now m).
  - destruct (deliver now vis token n ms) as [batch rest]. discriminate.
  - specialize (IH (S n)). destruct (deliver now vis token (S n) ms) as [batch rest].
    cbn in *. intros Hb. now rewrite IH.
Qed.

Lemma deliver_leases now vis token n ms :
  (0 <? vis)%Z = true ->
  filter (in_flight now token) ms = [] ->
  filter (in_flight now token) (snd (deliver now vis token n ms)) =
  map (hide now vis token) (fst (deliver now vis token n ms)).
Proof.
  intros V. revert n. induction ms as [|m ms IH]; intros n F; cbn; [reflexivity|].
  cbn in F. destruct (in_flight now token m) eqn:Fm; [discriminate|].
  destruct n as [|n]; cbn [fst snd map filter].
  - now rewrite Fm, F.
  - destruct (visible now m).
    + specialize (IH n F). destruct (deliver now vis token n ms) as [batch rest].
      cbn [fst snd map filter] in *.
      replace (in_flight now token (hide now vis token m)) with true.
      * now rewrite IH.
      * unfold hide, in_flight. rewrite V. cbn. rewrite String.eqb_refl.
        apply Z.ltb_lt in V. symmetry. apply andb_true_intro. split; [|reflexivity].
        apply Z.ltb_lt. lia.
    + specialize (IH (S n) F).
      destruct (deliver now vis token (S n) ms) as [batch rest].
      cbn [fst snd map filter] in *. now rewrite Fm.
Qed.

Lemma deliver_incl now vis token n ms :
  incl (fst (deliver now vis token n ms)) ms.
Proof.
  revert n. induction ms as [|m ms IH]; intros n; cbn; [apply incl_refl|].
  destruct n as [|n]; [apply incl_nil_l|].
  destruct (visible now m).
  - specialize (IH n). destruct (deliver now vis token n ms) as [batch rest].
    cbn in *. apply incl_cons; [now left | now apply incl_tl].
  - specialize (IH (S n)). destruct (deliver now vis token (S n) ms) as [batch rest].
    cbn in *. now apply incl_tl.
Qed.

Lemma attempt_incl now vis token n ms :
  incl (fst (attempt now vis token n ms)) ms.
Proof.
  unfold attempt. destruct (filter (in_flight now token) ms) as [|m l] eqn:F.
  - apply deliver_incl.
  - cbn [fst]. rewrite <- F. intros x Hx. now apply filter_In in Hx.
Qed.

Lemma inbound_hide names now vis token m :
  inbound names (hide now vis token m) = inbound names m.
Proof. unfold hide. destruct (0 <? vis)%Z; reflexivity. Qed.

(** A second attempt with the same token, right after the first, hands out
    the same messages and changes nothing. *)
Lemma attempt_again names now vis token n ms :
  exists batch,
    attempt now vis token n (snd (attempt now vis token n ms)) =
      (batch, snd (attempt now vis token n ms)) /\
    map (inbound names) batch =
      map (inbound names) (fst (attempt now vis token n ms)).
Proof.
  unfold attempt at 2 3 4.
  destruct (filter (in_flight now token) ms) as [|m l] eqn:F.
  - destruct (0 <? vis)%Z eqn:V.
    + pose proof (deliver_leases now vis token n ms V F) as L.
      destruct (fst (deliver now vis token n ms)) as [|m batch] eqn:B.
      * rewrite (deliver_nothing _ _ _ _ _ B). unfold attempt. rewrite F.
        exists []. rewrite (surjective_pairing (deliver now vis token n ms)) at 1.
        rewrite B, (deliver_nothing _ _ _ _ _ B). split; reflexivity.
      * unfold attempt. rewrite L. cbn [map].
        eexists. split; [reflexivity|].
        cbn [map]. rewrite inbound_hide. f_equal.
        rewrite map_map. apply map_ext. intros. apply inbound_hide.
    + rewrite (deliver_keeps now vis token n ms V). unfold attempt. rewrite F.
      exists (fst (deliver now vis token n ms)).
      rewrite (surjective_pairing (deliver now vis token n ms)) at 1.
      now rewrite (deliver_keeps now vis token n ms V).
  - cbn [fst snd]. unfold attempt. rewrite F. eexists. split; reflexivity.
Qed.

(** Claim C5.  Every attribute of a [send_message] the workflow makes,
    whatever answers the client, carries its data-type tag written out: the
    request is the literal one, with the attribute ['Test'], value
    ['TestString'], tag ['String'].  Sent to an existing queue of the service
    with the body ["Hello World!"], it returns a [MessageId] that is not the
    empty string. *)
Theorem publish_returns_message_id :
  (forall (Service : Type) (B : Backend Service) (s : Service) sqs names c
          url body attributes,
     In c (calls (snd (run (workflow sqs names) (start s)))) ->
     call_req c = send_message url body attributes ->
     dict_get "Test" attributes =
       PDict [("StringValue", PStr "TestString"); ("DataType", PStr "String")] /\
     forall name value, In (name, value) attributes ->
       name = "Test" /\ data_type value = Some "String") /\
  (forall (s : state) sqs url q,
     by_handle url (queues s) = Some q ->
     String.length "Hello World!" <= size_limit (settings s) ->
     exists id,
       fst (run (PublishMessage sqs url "Hello World!" test_attributes) (start s)) =
         inr [("MessageId", PStr id)] /\
       id <> "").
Proof.
  split.
  - intros Service B s sqs names c url body attributes Hin Hreq.
    destruct (workflow_sends _ _ _ _ Hin Hreq) as [_ ->].
    split; [reflexivity|].
    intros name value [E|[]]. injection E as <- <-. split; reflexivity.
  - intros s sqs url q Hq Hsize. unfold PublishMessage. rewrite run_invoke.
    cbn [start service calls stdout fst snd app].
    erewrite publish_accepted by eassumption. cbn [fst snd].
    eexists. split; [reflexivity|]. unfold message_id. discriminate.
Qed.

(** Claim C6.  The two polls of the scripts hand out the same stored
    messages.  Asking for [['Test']] returns, with each message, the stored
    attributes named ['Test'] and no other; a message without one comes with
    none, and the call does not fail.  Asking for [['All']] returns every
    attribute stored with the message. *)
Theorem requested_attributes_returned (s : state) sqs sqs' url q :
  by_handle url (queues s) = Some q ->
  exists batch,
    incl batch (messages q) /\
    fst (run (PollReceive sqs url ["All"] ["Test"] 10 0 0 "1") (start s)) =
      inr [("Messages",
            PList (map (fun m =>
                     PDict [("MessageId", PStr (MessageId m));
                            ("Body", PStr (Body m));
                            ("MessageAttributes",
                             PDict (filter (fun kv => String.eqb (fst kv) "Test")
                                           (Attributes m)))])
                   batch))] /\
    fst (run (PollReceive sqs' url ["All"] ["All"] 10 0 0 "1") (start s)) =
      inr [("Messages",
            PList (map (fun m =>
                     PDict [("MessageId", PStr (MessageId m));
                            ("Body", PStr (Body m));
                            ("MessageAttributes", PDict (Attributes m))])
                   batch))].
Proof.
  intros Hq. unfold PollReceive. rewrite !run_invoke.
  cbn [start service calls stdout fst snd].
  erewrite !poll_answered by eassumption. cbn [fst snd].
  exists (fst (attempt (clock s) 0 "1" (Z.to_nat 10) (messages q))).
  split; [apply attempt_incl|]. split; [|reflexivity].
  do 4 f_equal. apply map_ext. intros m. unfold inbound, requested.
  cbn [existsb String.eqb Ascii.eqb Bool.eqb andb orb].
  erewrite filter_ext; [reflexivity|].
  intros kv. cbn. now rewrite orb_false_r.
Qed.

(** Claim C7.  [PollReceive] hands its token, and its handle, to whatever
    answers the client as given: the call it logs is [receive_message] with
    that token and that handle.  Two polls in a row with the same token and
    handle are thus the same request twice; the service answers the second
    with the batch of the first, and is left as the first left it: nothing is
    handed out anew. *)
Theorem same_token_same_attempt :
  (forall (Service : Type) (B : Backend Service) (w : world Service) sqs url
          attributeNames names maxMessages visibilityTimeout waitDuration
          dedupToken,
     exists r,
       calls (snd (run (PollReceive sqs url attributeNames names maxMessages
                          visibilityTimeout waitDuration dedupToken) w)) =
       calls w ++
       [Call sqs (receive_message url attributeNames names maxMessages
                    visibilityTimeout waitDuration dedupToken) r]) /\
  (forall (s : state) sqs url attributeNames names maxMessages
          visibilityTimeout waitDuration dedupToken,
     let poll :=
       PollReceive sqs url attributeNames names maxMessages visibilityTimeout
         waitDuration dedupToken in
     let first := run poll (start s) in
     let second := run poll (snd first) in
     fst second = fst first /\
     service (snd second) = service (snd first)).
Proof.
  split.
  - intros. unfold PollReceive. rewrite run_invoke. cbn [snd calls].
    eexists. reflexivity.
  - intros. subst poll first second. unfold PollReceive. rewrite !run_invoke.
    cbn [start service calls stdout fst snd].
    destruct (by_handle url (queues s)) as [q|] eqn:Hq.
    + rewrite (@poll_answered s sqs url q attributeNames names maxMessages
                 visibilityTimeout waitDuration dedupToken Hq).
      cbn [fst snd].
      erewrite poll_answered
        by (cbn [queues]; eapply by_handle_store; [exact Hq | reflexivity]).
      cbn [fst snd settings queues clock accepted queue_name queue_handle messages].
      destruct (attempt_again names (clock s) visibilityTimeout dedupToken
                  (Z.to_nat maxMessages) (messages q)) as (batch & E & M).
      rewrite E. cbn [fst snd]. rewrite M, store_store. split; reflexivity.
    + assert (E : serve s sqs (receive_message url attributeNames names
                                 maxMessages visibilityTimeout waitDuration
                                 dedupToken) =
                  (s, inl (ValidationError InvalidHandle))).
      { unfold serve, backend, answer. now rewrite Hq. }
      rewrite E. cbn [fst snd]. rewrite E. split; reflexivity.
Qed.

(** Once the timeout has elapsed at the service, a message handed out is
    visible again. *)
Lemma visible_after_timeout s vis token m :
  visible (clock s) m = true ->
  visible (clock (elapse vis s)) (hide (clock s) vis token m) = true.
Proof.
  unfold hide, visible, elapse. cbn [clock].
  destruct (0 <? vis)%Z eqn:V; cbn.
  - intros _. apply Z.leb_le. lia.
  - destruct (lease m) as [[t until]|]; [|reflexivity].
    intros Hv. apply Z.leb_le in Hv. apply Z.leb_le. lia.
Qed.

End Service.

(** ** Concrete runs *)

(** Claim C1 as the spec words it fails: with the lookup failing in transport
    the create call is made all the same, and [ResolveQueue] returns a handle
    instead of raising [TransportError]. *)
Lemma lookup_transport_error_swallowed :
  ~ only_not_found_falls_back lookup_unreachable example_sqs "bruh".
Proof.
  intros Hclaim.
  destruct (Hclaim TransportError eq_refl) as [Hout _]; [discriminate|].
  discriminate Hout.
Qed.

Lemma lookup_error_falls_back_witness :
  snd (serve lookup_unreachable example_sqs (get_queue_url "bruh")) =
    inl TransportError /\
  calls (snd (run (ResolveQueue example_sqs "bruh") (start lookup_unreachable))) =
    [Call example_sqs (get_queue_url "bruh") (inl TransportError);
     Call example_sqs (create_queue "bruh") (inr [("QueueUrl", PStr bruh_url)])] /\
  fst (run (ResolveQueue example_sqs "bruh") (start lookup_unreachable)) =
    inr (PStr bruh_url).
Proof.
  split; [reflexivity|].
  apply (@lookup_error_falls_back _ Scripted.backend lookup_unreachable
           example_sqs "bruh" TransportError).
  reflexivity.
Defined.

Lemma resolve_creates_once_when_not_found_witness :
  created (calls (snd (run (ResolveQueue example_sqs "bruh")
                           (start lookup_not_found)))) = 1 /\
  created (calls (snd (run (ResolveQueue example_sqs "bruh")
                           (start lookup_found)))) = 0 /\
  fst (run (ResolveQueue example_sqs "bruh") (start lookup_found)) =
    inr (PStr bruh_url).
Proof.
  split.
  - apply (proj1 (@resolve_creates_once_when_not_found _ Scripted.backend
                    lookup_not_found example_sqs "bruh")).
    reflexivity.
  - apply (proj2 (@resolve_creates_once_when_not_found _ Scripted.backend
                    lookup_found example_sqs "bruh")
                 [("QueueUrl", PStr bruh_url)]).
    reflexivity.
Defined.

(** Claim C10 as worded fails where a missing handle is refused: the lookup
    answers without a ['QueueUrl'], the send with [None] raises, and no
    receive is made. *)
Lemma missing_handle_stops_at_send :
  ~ sends_and_receives_without_handle lookup_without_url_checked example_sqs
      ["Test"].
Proof.
  intros Hclaim.
  destruct Hclaim as (r2 & r3 & _ & Hin).
  - left. exists []. split; reflexivity.
  - cbn in Hin. destruct Hin as [Hin|[Hin|[]]]; discriminate Hin.
Qed.

Lemma workflow_proceeds_without_handle_witness :
  exists resolving r2 rest,
    calls (snd (run (workflow example_sqs ["Test"])
                    (start lookup_without_url_checked))) =
      resolving ++
      Call example_sqs (send_message PNone "Hello World!" test_attributes) r2
        :: rest /\
    Forall (fun c => step_of c = Resolve) resolving /\
    match r2 with
    | inr _ =>
        exists r3,
          rest = [Call example_sqs
                    (receive_message PNone ["All"] ["Test"] 10 0 0 "1") r3]
    | inl e =>
        rest = [] /\
        fst (run (workflow example_sqs ["Test"])
                 (start lookup_without_url_checked)) = inl e
    end.
Proof.
  apply (@workflow_proceeds_without_handle _ _ lookup_without_url_checked
           example_sqs ["Test"]).
  left. exists []. split; reflexivity.
Defined.

(** The run of [example.py] behind the checking client, lookup answering
    without a ['QueueUrl']: two calls, one line, and the send's exception. *)
Example example_py_without_handle :
  let finished := run Example.main (start lookup_without_url_checked) in
  fst finished = inl (ValidationError InvalidHandle) /\
  map call_req (calls (snd finished)) =
    [get_queue_url "bruh";
     send_message PNone "Hello World!" test_attributes] /\
  stdout (snd finished) = [Line "Queue URL: " PNone].
Proof. cbv zeta. repeat split. Qed.

Lemma scripts_equivalent_witness :
  let a := run Example.main (start lookup_not_found) in
  let b := run Nervemq_example.main (start lookup_not_found) in
  fst a = fst b /\ service (snd a) = service (snd b) /\
  stdout (snd a) = stdout (snd b) /\
  map masked (calls (snd a)) = map masked (calls (snd b)).
Proof.
  apply (@scripts_equivalent _ Scripted.backend lookup_not_found).
  intros s c r. reflexivity.
Defined.

Lemma publish_then_poll_witness :
  let published :=
    run (PublishMessage example_sqs (PStr bruh_url) "Hello World!" test_attributes)
        (start bruh_empty) in
  let polled :=
    run (PollReceive example_sqs (PStr bruh_url) ["All"] ["Test"] 10 0 0 "1")
        (snd published) in
  exists response received msg,
    fst published = inr response /\
    fst polled = inr received /\
    dict_get "Messages" received = PList [PDict msg] /\
    dict_get "Body" msg = PStr "Hello World!" /\
    dict_get "MessageId" msg = dict_get "MessageId" response /\
    dict_get "MessageId" response <> PNone.
Proof.
  apply (@publish_then_poll bruh_empty example_sqs (PStr bruh_url)
           (NerveMQ.Queue "bruh" bruh_url []) ["All"] ["Test"] "1").
  - reflexivity.
  - reflexivity.
  - apply Nat.leb_le. reflexivity.
Defined.

Lemma publish_returns_message_id_witness :
  (forall name value,
     In (name, value) test_attributes ->
     name = "Test" /\ data_type value = Some "String") /\
  (exists id,
     fst (run (PublishMessage example_sqs (PStr bruh_url) "Hello World!"
                 test_attributes)
              (start bruh_empty)) = inr [("MessageId", PStr id)] /\
     id <> "").
Proof.
  split.
  - apply (proj1 publish_returns_message_id _ Scripted.backend
             lookup_without_url example_sqs ["Test"]
             (Call example_sqs
                (send_message PNone "Hello World!" test_attributes)
                (inr [("MessageId", PStr "m0")]))
             PNone "Hello World!" test_attributes).
    + cbn. auto.
    + reflexivity.
  - apply (proj2 publish_returns_message_id bruh_empty example_sqs
             (PStr bruh_url) (NerveMQ.Queue "bruh" bruh_url [])).
    + reflexivity.
    + apply Nat.leb_le. reflexivity.
Defined.

Lemma requested_attributes_returned_witness :
  exists batch,
    incl batch
      (NerveMQ.messages
         (NerveMQ.Queue "bruh" bruh_url
            [NerveMQ.Message "m0" "first"
               [("Test", PDict [("StringValue", PStr "a");
                                ("DataType", PStr "String")]);
                ("Other", PDict [("StringValue", PStr "7");
                                 ("DataType", PStr "Number")])]
               None;
             NerveMQ.Message "m1" "second"
               [("Other", PDict [("StringValue", PStr "8");
                                 ("DataType", PStr "Number")])]
               None])) /\
    fst (run (PollReceive example_sqs (PStr bruh_url) ["All"] ["Test"] 10 0 0 "1")
             (start bruh_two)) =
      inr [("Messages",
            PList (map (fun m =>
                     PDict [("MessageId", PStr (NerveMQ.MessageId m));
                            ("Body", PStr (NerveMQ.Body m));
                            ("MessageAttributes",
                             PDict (filter (fun kv => String.eqb (fst kv) "Test")
                                           (NerveMQ.Attributes m)))])
                   batch))] /\
    fst (run (PollReceive nervemq_example_sqs (PStr bruh_url) ["All"] ["All"]
                10 0 0 "1")
             (start bruh_two)) =
      inr [("Messages",
            PList (map (fun m =>
                     PDict [("MessageId", PStr (NerveMQ.MessageId m));
                            ("Body", PStr (NerveMQ.Body m));
                            ("MessageAttributes", PDict (NerveMQ.Attributes m))])
                   batch))].
Proof.
  apply (@requested_attributes_returned bruh_two example_sqs nervemq_example_sqs
           (PStr bruh_url)).
  reflexivity.
Defined.

(** The two clients are the same but for the credentials. *)
Example clients_differ_in_credentials :
  without_credentials example_sqs = without_credentials nervemq_example_sqs /\
  aws_access_key_id example_sqs <> aws_access_key_id nervemq_example_sqs /\
  aws_secret_access_key example_sqs <> aws_secret_access_key nervemq_example_sqs.
Proof. repeat split; discriminate. Qed.

(** The poll of [example.py] on the two sample messages: the first comes with
    its ['Test'] attribute only, the second with none. *)
Example poll_test_only :
  fst (run (PollReceive example_sqs (PStr bruh_url) ["All"] ["Test"] 10 0 0 "1")
           (start bruh_two)) =
  inr [("Messages",
        PList [PDict [("MessageId", PStr "m0"); ("Body", PStr "first");
                      ("MessageAttributes",
                       PDict [("Test", PDict [("StringValue", PStr "a");
                                              ("DataType", PStr "String")])])];
               PDict [("MessageId", PStr "m1"); ("Body", PStr "second");
                      ("MessageAttributes", PDict [])]])].
Proof. reflexivity. Qed.

(** [example.py] against a service with no queue yet: the lookup raises, the
    queue is created, the message is sent and comes back. *)
Example example_py_on_empty_service :
  let finished := run Example.main (start (NerveMQ.empty local_settings)) in
  fst finished = inr tt /\
  map step_of (calls (snd finished)) = [Resolve; Resolve; Publish; Poll] /\
  stdout (snd finished) =
    [Line "Queue URL: " (PStr bruh_url);
     Line "Message ID: " (PStr "m0");
     Line "Messages: "
       (PList [PDict [("MessageId", PStr "m0"); ("Body", PStr "Hello World!");
                      ("MessageAttributes", PDict test_attributes)]])].
Proof. cbv zeta. repeat split. Qed.

(** [nervemq_example/main.py] after [example.py] on the same service: the
    lookup succeeds, nothing is created, and the poll returns both
    messages. *)
Example main_py_after_example_py :
  let first := run Example.main (start (NerveMQ.empty local_settings)) in
  let finished := run Nervemq_example.main (start (service (snd first))) in
  fst finished = inr tt /\
  map step_of (calls (snd finished)) = [Resolve; Publish; Poll] /\
  stdout (snd finished) =
    [Line "Queue URL: " (PStr bruh_url);
     Line "Message ID: " (PStr "m1");
     Line "Messages: "
       (PList [PDict [("MessageId", PStr "m0"); ("Body", PStr "Hello World!");
                      ("MessageAttributes", PDict test_attributes)];
               PDict [("MessageId", PStr "m1"); ("Body", PStr "Hello World!");
                      ("MessageAttributes", PDict test_attributes)]])].
Proof. cbv zeta. repeat split. Qed.

Lemma scripts_differ_only_in_receive_witness :
  let a := run Example.main (start bruh_two) in
  let b := run Nervemq_example.main (start bruh_two) in
  map masked (filter not_receive (calls (snd a))) =
    map masked (filter not_receive (calls (snd b))) /\
  invoked is_receive (calls (snd a)) = invoked is_receive (calls (snd b)) /\
  firstn 2 (stdout (snd a)) = firstn 2 (stdout (snd b)) /\
  (invoked is_receive (calls (snd a)) = 0 ->
   fst a = fst b /\ service (snd a) = service (snd b)).
Proof.
  apply (@scripts_differ_only_in_receive _ NerveMQ.backend bruh_two).
  intros s c r. reflexivity.
Defined.

(** On the two sample messages the scripts do part ways at the receive: the
    third line printed is not the same. *)
Example scripts_part_at_receive :
  nth_error (stdout (snd (run Example.main (start bruh_two)))) 2 <>
  nth_error (stdout (snd (run Nervemq_example.main (start bruh_two)))) 2.
Proof. cbn. discriminate. Qed.
